(** * The PostHog provider: connection hook and track-event operator

    A shallow embedding of

    - [airflow/providers/posthog/hooks/posthog.py] (class [PostHogHook]) and
    - [airflow/providers/posthog/operators/posthog_track_event.py]
      (class [PostHogTrackEventOperator]),

    followed by the properties of the two classes.

    Python statements become computations in a small state-and-exception
    monad [Py] over a [World] holding everything the two classes can touch:
    the framework's connection store, the module-level state of the [posthog]
    client library, the log, and the calls that reached the client's
    [capture].  A raised exception keeps the effects that happened before
    it, as in Python. *)

From stdpp Require Import base gmap strings list fin_maps.

Local Open Scope string_scope.

(** ** Python values *)

(** The values that can sit in a connection's extras payload or in an
    event's property map: what [json.loads] produces, with JSON [null] read
    as [None].  JSON numbers are kept to the integers. *)
#[warnings="-register-all"]
Inductive pyval : Type :=
  | PyNone
  | PyBool (b : bool)
  | PyInt (z : Z)
  | PyStr (s : string)
  | PyList (l : list pyval)
  | PyDict (d : gmap string pyval).

(** [d.get(key)]: the value stored under [key], [None] when there is none. *)
Definition dict_get (d : gmap string pyval) (key : string) : pyval :=
  default PyNone (d !! key).

(** [x or {}] for [x : Optional[dict]]: [None] and the empty dictionary are
    the two falsy cases. *)
Definition or_empty_dict (x : option (gmap string pyval)) : gmap string pyval :=
  match x with
  | None => ∅
  | Some d => if decide (d = ∅) then ∅ else d
  end.

(** [needle in hay] for two [str]. *)
Fixpoint contains (needle hay : string) : bool :=
  String.prefix needle hay ||
  match hay with
  | EmptyString => false
  | String _ hay' => contains needle hay'
  end.

(** ** Exceptions *)

(** The exceptions the two classes can meet: the framework's
    [AirflowException] with its message, the error of the connection store
    for an identifier it does not know, and the interpreter's own
    [AttributeError] and [TypeError]. *)
Inductive exn : Type :=
  | AirflowException (msg : string)
  | ConnectionNotFound (conn_id : string)
  | AttributeError (type_name attribute : string)
  | TypeError.

(** ** The world *)

(** A stored connection; of the record only [extra_dejson], the extras
    payload parsed into a dictionary, is read. *)
Record Connection : Type := {
  conn_id : string;
  extra_dejson : gmap string pyval;
}.

(** An instance of class [PostHogHook]: the attributes [__init__] assigns,
    and [oid], the identity of the object. *)
Record PostHogHook : Type := {
  oid : nat;
  posthog_conn_id : string;
  posthog_debug_mode : bool;
  _args : list pyval;
  _kwargs : gmap string pyval;
  connection : Connection;
  extras : gmap string pyval;
  project_api_key : pyval;
}.

(** A callable stored in [posthog.on_error]: the bound method
    [hook.on_error] of a hook. *)
Inductive callback : Type :=
  | bound_on_error (self : PostHogHook).

Inductive levelname : Type := INFO | ERROR.

(** A log record as [logging] keeps it: the level, the message template and
    the arguments, not yet merged. *)
Record LogRecord : Type := {
  level : levelname;
  msg : string;
  args : list pyval;
}.

(** One invocation of the client's [capture]. *)
Record capture_call : Type := {
  capture_user_id : string;
  capture_event : string;
  capture_properties : gmap string pyval;
}.

Module posthog.

(** The module-level attributes of the client library that the hook
    assigns. *)
Record module_state : Type := {
  debug : bool;
  on_error : option callback;
  project_api_key : pyval;
}.

(** The client handle: the module object itself, of which there is one
    per process. *)
Inductive handle : Type := module.

End posthog.

Record World : Type := {
  connections : gmap string Connection;
  client : posthog.module_state;
  captured : list capture_call;
  log : list LogRecord;
  next_oid : nat;
}.

(** ** The monad of Python statements *)

Inductive outcome (A : Type) : Type :=
  | Return (a : A)
  | Raise (e : exn).
Arguments Return {A} a.
Arguments Raise {A} e.

Definition Py (A : Type) : Type := World → outcome A * World.

#[global] Instance Py_ret : MRet Py := λ A a w, (Return a, w).

#[global] Instance Py_bind : MBind Py := λ A B f m w,
  match m w with
  | (Return a, w') => f a w'
  | (Raise e, w') => (Raise e, w')
  end.

#[global] Instance Py_throw : MThrow exn Py := λ A e w, (Raise e, w).

Definition get_world : Py World := λ w, (Return w, w).

Definition modify_world (f : World → World) : Py unit := λ w, (Return tt, f w).

(** ** Updating the world *)

Definition with_client (c : posthog.module_state) (w : World) : World :=
  {| connections := connections w; client := c; captured := captured w;
     log := log w; next_oid := next_oid w |}.

Definition with_captured (l : list capture_call) (w : World) : World :=
  {| connections := connections w; client := client w; captured := l;
     log := log w; next_oid := next_oid w |}.

Definition with_log (l : list LogRecord) (w : World) : World :=
  {| connections := connections w; client := client w; captured := captured w;
     log := l; next_oid := next_oid w |}.

Definition with_next_oid (n : nat) (w : World) : World :=
  {| connections := connections w; client := client w; captured := captured w;
     log := log w; next_oid := n |}.

(** Creating an object hands out the next identity. *)
Definition alloc : Py nat := λ w,
  (Return (next_oid w), with_next_oid (S (next_oid w)) w).

(** ** Logging *)

(** [self.log.info(msg, *args)] and [self.log.error(msg, *args)] append one
    record to the log. *)
Definition log_emit (lvl : levelname) (msg : string) (args : list pyval) : Py unit :=
  modify_world (λ w,
    with_log (log w ++ [{| level := lvl; msg := msg; args := args |}]) w).

Definition log_info : string → list pyval → Py unit := log_emit INFO.
Definition log_error : string → list pyval → Py unit := log_emit ERROR.

(** ** The client library *)

Module client.

(** [posthog.debug = v] *)
Definition set_debug (v : bool) : Py unit :=
  modify_world (λ w,
    with_client
      {| posthog.debug := v;
         posthog.on_error := posthog.on_error (client w);
         posthog.project_api_key := posthog.project_api_key (client w) |} w).

(** [posthog.on_error = v] *)
Definition set_on_error (v : callback) : Py unit :=
  modify_world (λ w,
    with_client
      {| posthog.debug := posthog.debug (client w);
         posthog.on_error := Some v;
         posthog.project_api_key := posthog.project_api_key (client w) |} w).

(** [posthog.project_api_key = v] *)
Definition set_project_api_key (v : pyval) : Py unit :=
  modify_world (λ w,
    with_client
      {| posthog.debug := posthog.debug (client w);
         posthog.on_error := posthog.on_error (client w);
         posthog.project_api_key := v |} w).

(** Modelled from the spec: the client library is not among the sources.
    Its operation [capture(user_id, event, properties)] records a named
    event for a user with a property map, with delivery machinery that is
    opaque; of a call the world keeps that it happened and with which three
    values. *)
Definition capture (h : posthog.handle) (user_id event : string)
    (properties : gmap string pyval) : Py unit :=
  modify_world (λ w,
    with_captured
      (captured w ++
         [{| capture_user_id := user_id; capture_event := event;
             capture_properties := properties |}]) w).

End client.

(** ** The base class of the hook *)

Module BaseHook.

(** Modelled from the spec: class [BaseHook] ([airflow.hooks.base]) is not
    among the sources.  Its [get_connection] fetches the connection record
    for an identifier from the external connection store and fails with a
    configuration error if the identifier does not resolve. *)
Definition get_connection (conn_id : string) : Py Connection :=
  w ← get_world;
  match connections w !! conn_id with
  | Some c => mret c
  | None => mthrow (ConnectionNotFound conn_id)
  end.

End BaseHook.

(** ** [hooks/posthog.py] *)

(** What an attribute reference on a hook evaluates to. *)
Inductive method : Type :=
  | method__init__
  | method_get_conn
  | method_on_error
  | method_get_connection.

Inductive attribute : Type :=
  | attr_data (v : pyval)
  | attr_connection (c : Connection)
  | attr_logger
  | attr_method (m : method).

Fixpoint assoc {A : Type} (name : string) (l : list (string * A)) : option A :=
  match l with
  | [] => None
  | (k, v) :: l' => if decide (k = name) then Some v else assoc name l'
  end.

Module PostHogHook.

Definition conn_name_attr : string := "posthog_conn_id".
Definition default_conn_name : string := "posthog_default".
Definition conn_type : string := "posthog".
Definition hook_name : string := "PostHog".

(** The body of [__init__], run on the fresh object [self_oid].  The
    object exists for the caller only if the body returns, so the attributes
    assigned before the lookup appear in the returned record only.  The call
    [super().__init__()] touches nothing of the world. *)
Definition __init__ (self_oid : nat) (posthog_conn_id : string)
    (posthog_debug_mode : bool) (args : list pyval)
    (kwargs : gmap string pyval) : Py PostHogHook :=
  connection ← BaseHook.get_connection posthog_conn_id;
  let extras := extra_dejson connection in
  let project_api_key := dict_get extras "project_api_key" in
  match project_api_key with
  | PyNone => mthrow (AirflowException "No PostHog write key provided")
  | _ =>
      mret {| oid := self_oid;
              posthog_conn_id := posthog_conn_id;
              posthog_debug_mode := posthog_debug_mode;
              _args := args;
              _kwargs := kwargs;
              connection := connection;
              extras := extras;
              project_api_key := project_api_key |}
  end.

(** The call [PostHogHook(posthog_conn_id, posthog_debug_mode, *args,
    **kwargs)]: a new object, initialised by [__init__]. *)
Definition new (posthog_conn_id : string) (posthog_debug_mode : bool)
    (args : list pyval) (kwargs : gmap string pyval) : Py PostHogHook :=
  self_oid ← alloc;
  __init__ self_oid posthog_conn_id posthog_debug_mode args kwargs.

Definition get_conn (self : PostHogHook) : Py posthog.handle :=
  log_info "Setting write key for PostHog connection" [];;
  client.set_debug (posthog_debug_mode self);;
  (if posthog_debug_mode self
   then log_info "Setting PostHog connection to debug mode" []
   else mret tt);;
  client.set_on_error (bound_on_error self);;
  client.set_project_api_key (project_api_key self);;
  mret posthog.module.

Definition on_error (self : PostHogHook) (error items : string) : Py unit :=
  log_error "Encountered PostHog error: %s with items: %s"
    [PyStr error; PyStr items];;
  mthrow (AirflowException ("PostHog error: " +:+ error)).

(** *** Attribute references *)

(** The attributes [__init__] stores on the instance. *)
Definition instance_dict (self : PostHogHook) : list (string * attribute) :=
  [ ("posthog_conn_id", attr_data (PyStr (posthog_conn_id self)));
    ("posthog_debug_mode", attr_data (PyBool (posthog_debug_mode self)));
    ("_args", attr_data (PyList (_args self)));
    ("_kwargs", attr_data (PyDict (_kwargs self)));
    ("connection", attr_connection (connection self));
    ("extras", attr_data (PyDict (extras self)));
    ("project_api_key", attr_data (project_api_key self)) ].

(** The names bound in the body of class [PostHogHook]. *)
Definition class_dict : list (string * attribute) :=
  [ ("conn_name_attr", attr_data (PyStr conn_name_attr));
    ("default_conn_name", attr_data (PyStr default_conn_name));
    ("conn_type", attr_data (PyStr conn_type));
    ("hook_name", attr_data (PyStr hook_name));
    ("__init__", attr_method method__init__);
    ("get_conn", attr_method method_get_conn);
    ("on_error", attr_method method_on_error) ].

(** Modelled from the spec: the members the hook takes from its base
    class [BaseHook], which is not among the sources: the connection-store
    lookup and the logger.  The base class has no member [capture] and no
    [__getattr__] fallback. *)
Definition base_dict : list (string * attribute) :=
  [ ("get_connection", attr_method method_get_connection);
    ("log", attr_logger) ].

(** [self.name]: the instance first, then the class, then its base;
    [AttributeError] when none of them has the name. *)
Definition getattr (self : PostHogHook) (name : string) : Py attribute :=
  match assoc name (instance_dict self ++ class_dict ++ base_dict) with
  | Some a => mret a
  | None => mthrow (AttributeError "PostHogHook" name)
  end.

(** Calling what an attribute reference gave with the three keyword
    arguments [user_id], [event] and [properties].  Data and the logger
    are not callable; [get_conn], [on_error] and [get_connection] take no
    such keywords; [__init__] takes any keyword arguments and runs again
    with its defaults. *)
Definition call_with_event (a : attribute) (self : PostHogHook)
    (user_id event : string) (properties : gmap string pyval) : Py unit :=
  match a with
  | attr_method method__init__ =>
      __init__ (oid self) "posthog_default" false []
        (<["user_id" := PyStr user_id]>
           (<["event" := PyStr event]>
              {["properties" := PyDict properties]}));;
      mret tt
  | _ => mthrow TypeError
  end.

(** The client calling back [posthog.on_error(error, items)]. *)
Definition call_callback (cb : callback) (error items : string) : Py unit :=
  match cb with
  | bound_on_error self => on_error self error items
  end.

End PostHogHook.

(** ** [operators/posthog_track_event.py] *)

Module PostHogTrackEventOperator.

(** An instance of the operator: the attributes its [__init__] assigns. *)
Record t : Type := {
  user_id : string;
  event : string;
  properties : gmap string pyval;
  posthog_debug_mode : bool;
  posthog_conn_id : string;
}.

(** The keyword-only parameters; an optional parameter that the caller
    omits is [None] here and takes the default of the signature. *)
Definition __init__ (user_id event : string)
    (properties : option (gmap string pyval))
    (posthog_conn_id : option string) (posthog_debug_mode : option bool) : t :=
  let properties := or_empty_dict properties in
  {| user_id := user_id;
     event := event;
     properties := properties;
     posthog_debug_mode := default false posthog_debug_mode;
     posthog_conn_id := default "posthog_default" posthog_conn_id |}.

(** [execute(self, context)]; the context is not read. *)
Definition execute (self : t) : Py unit :=
  hook ← PostHogHook.new (posthog_conn_id self) (posthog_debug_mode self) [] ∅;
  log_info "Sending track event (%s) for user id: %s with properties: %s"
    [PyStr (event self); PyStr (user_id self); PyDict (properties self)];;
  capture ← PostHogHook.getattr hook "capture";
  PostHogHook.call_with_event capture hook
    (user_id self) (event self) (properties self).

End PostHogTrackEventOperator.

(** ** Derived values

    Names for the values the statements of the two classes produce, used to
    state their results. *)

(** The object [__init__] leaves behind when it returns. *)
Definition initialised (self_oid : nat) (id : string) (dbg : bool)
    (args : list pyval) (kwargs : gmap string pyval) (c : Connection)
    : PostHogHook :=
  {| oid := self_oid; posthog_conn_id := id; posthog_debug_mode := dbg;
     _args := args; _kwargs := kwargs; connection := c;
     extras := extra_dejson c;
     project_api_key := dict_get (extra_dejson c) "project_api_key" |}.

(** The configuration [get_conn] writes into the client for a hook. *)
Definition configuration_of (self : PostHogHook) : posthog.module_state :=
  {| posthog.debug := posthog_debug_mode self;
     posthog.on_error := Some (bound_on_error self);
     posthog.project_api_key := project_api_key self |}.

(** The records [get_conn] logs. *)
Definition get_conn_log (self : PostHogHook) : list LogRecord :=
  {| level := INFO; msg := "Setting write key for PostHog connection"; args := [] |}
  :: (if posthog_debug_mode self
      then [{| level := INFO; msg := "Setting PostHog connection to debug mode";
               args := [] |}]
      else []).

(** The record [execute] logs before the call. *)
Definition sending_record (self : PostHogTrackEventOperator.t) : LogRecord :=
  {| level := INFO;
     msg := "Sending track event (%s) for user id: %s with properties: %s";
     args := [PyStr (PostHogTrackEventOperator.event self);
              PyStr (PostHogTrackEventOperator.user_id self);
              PyDict (PostHogTrackEventOperator.properties self)] |}.

(** The last statement of [execute]. *)
Definition capture_statement (self : PostHogTrackEventOperator.t)
    (hook : PostHogHook) : Py unit :=
  capture ← PostHogHook.getattr hook "capture";
  PostHogHook.call_with_event capture hook
    (PostHogTrackEventOperator.user_id self)
    (PostHogTrackEventOperator.event self)
    (PostHogTrackEventOperator.properties self).

(** ** Sample data *)

Definition empty_client : posthog.module_state :=
  {| posthog.debug := false; posthog.on_error := None;
     posthog.project_api_key := PyNone |}.

Definition world_of (store : gmap string Connection) : World :=
  {| connections := store; client := empty_client; captured := [];
     log := []; next_oid := 0 |}.

Definition conn_with_key (id : string) (key : pyval) : Connection :=
  {| conn_id := id; extra_dejson := {["project_api_key" := key]} |}.

Definition abc_world : World :=
  world_of {["posthog_default" := conn_with_key "posthog_default" (PyStr "abc")]}.

Definition signup_operator : PostHogTrackEventOperator.t :=
  PostHogTrackEventOperator.__init__ "u1" "signup"
    (Some {["plan" := PyStr "pro"]}) None None.

(** A store whose default connection has an empty extras payload. *)
Definition keyless_world : World :=
  world_of {["posthog_default" :=
               {| conn_id := "posthog_default"; extra_dejson := ∅ |}]}.

(** The hook that construction over [abc_world] returns, and the world it
    leaves. *)
Definition abc_hook (dbg : bool) : PostHogHook :=
  initialised 0 "posthog_default" dbg [] ∅
    (conn_with_key "posthog_default" (PyStr "abc")).

Definition abc_world_1 : World := with_next_oid 1 abc_world.

Definition two_key_world : World :=
  world_of (<["first" := conn_with_key "first" (PyStr "k1")]>
              {["second" := conn_with_key "second" (PyStr "k2")]}).

(** The record [get_conn] logs in debug mode only. *)
Definition debug_mode_record : LogRecord :=
  {| level := INFO; msg := "Setting PostHog connection to debug mode"; args := [] |}.

(** The sample store with the token also filed under [write_key]. *)
Definition write_key_world : World :=
  world_of {["posthog_default" :=
               {| conn_id := "posthog_default";
                  extra_dejson :=
                    <["write_key" := PyStr "abc"]>
                      {["project_api_key" := PyStr "abc"]} |}]}.

(** * Properties *)

(** Unfolds the monad's operations so that a run on a world computes. *)
Ltac py_run :=
  unfold mbind, mret, mthrow, Py_bind, Py_ret, Py_throw,
    get_world, modify_world; cbn.

(** ** Running computations *)

Section Run.
Context {A B : Type}.
Implicit Types (m : Py A) (f : A → Py B) (w : World).

Lemma run_bind_return m f w a w' :
  m w = (Return a, w') → (m ≫= f) w = f a w'.
Proof. intros Hm. unfold mbind, Py_bind. now rewrite Hm. Qed.

Lemma run_bind_raise m f w e w' :
  m w = (Raise e, w') → (m ≫= f) w = (Raise e, w').
Proof. intros Hm. unfold mbind, Py_bind. now rewrite Hm. Qed.

(** A sequence raises exactly when its first part does, or when the first
    part returns and the rest raises from where the first part stopped. *)
Lemma run_bind_raise_inv m f w e w' :
  (m ≫= f) w = (Raise e, w') ↔
  m w = (Raise e, w') ∨ ∃ a w1, m w = (Return a, w1) ∧ f a w1 = (Raise e, w').
Proof.
  unfold mbind, Py_bind. destruct (m w) as [[a|e1] w1]; split.
  - intros Hf. right. eauto.
  - intros [Hm | (a' & w2 & Hm & Hf)]; [discriminate |].
    inversion Hm; subst; assumption.
  - intros Hm. left. inversion Hm; reflexivity.
  - intros [Hm | (a' & w2 & Hm & Hf)]; [inversion Hm; reflexivity | discriminate].
Qed.
End Run.

(** ** Strings *)

Lemma prefix_refl (s : string) : String.prefix s s = true.
Proof.
  induction s as [|a s IH]; simpl; [reflexivity |].
  destruct (Ascii.ascii_dec a a); [assumption | contradiction].
Qed.

Lemma contains_refl (s : string) : contains s s = true.
Proof. destruct s; cbn [contains]; now rewrite prefix_refl. Qed.

Lemma contains_suffix (p s : string) : contains s (p +:+ s) = true.
Proof.
  induction p as [|a p IH].
  - apply contains_refl.
  - change (String a p +:+ s) with (String a (p +:+ s)).
    cbn [contains]. rewrite IH. apply orb_true_r.
Qed.

(** ** Constructing a hook *)

Lemma init_unresolved o id dbg args kwargs w :
  connections w !! id = None →
  PostHogHook.__init__ o id dbg args kwargs w = (Raise (ConnectionNotFound id), w).
Proof.
  intros Hc. unfold PostHogHook.__init__, BaseHook.get_connection.
  py_run. now rewrite Hc.
Qed.

Lemma init_none o id dbg args kwargs w c :
  connections w !! id = Some c →
  dict_get (extra_dejson c) "project_api_key" = PyNone →
  PostHogHook.__init__ o id dbg args kwargs w = (Raise (AirflowException "No PostHog write key provided"), w).
Proof.
  intros Hc Hk. unfold PostHogHook.__init__, BaseHook.get_connection.
  py_run. rewrite Hc. now rewrite Hk.
Qed.

Lemma init_some o id dbg args kwargs w c :
  connections w !! id = Some c →
  dict_get (extra_dejson c) "project_api_key" ≠ PyNone →
  PostHogHook.__init__ o id dbg args kwargs w =
    (Return (initialised o id dbg args kwargs c), w).
Proof.
  intros Hc Hk. unfold PostHogHook.__init__, BaseHook.get_connection, initialised.
  py_run. rewrite Hc.
  destruct (dict_get (extra_dejson c) "project_api_key"); congruence.
Qed.

Lemma new_unfold id dbg args kwargs w :
  PostHogHook.new id dbg args kwargs w =
    PostHogHook.__init__ (next_oid w) id dbg args kwargs
      (with_next_oid (S (next_oid w)) w).
Proof. reflexivity. Qed.

(** Whatever [__init__] does, it leaves the world as it found it. *)
Lemma init_world o id dbg args kwargs w r w' :
  PostHogHook.__init__ o id dbg args kwargs w = (r, w') → w' = w.
Proof.
  destruct (connections w !! id) as [c|] eqn:Hc.
  - destruct (dict_get (extra_dejson c) "project_api_key") eqn:Hk.
    1: rewrite (init_none _ _ _ _ _ _ _ Hc Hk); congruence.
    all: rewrite (init_some _ _ _ _ _ _ _ Hc); [congruence | rewrite Hk; discriminate].
  - rewrite (init_unresolved _ _ _ _ _ _ Hc). congruence.
Qed.

(** A construction that returns has resolved the connection and found a key
    other than [None]; the world has only handed out one identity. *)
Lemma new_return_inv id dbg args kwargs w h w1 :
  PostHogHook.new id dbg args kwargs w = (Return h, w1) →
  ∃ c, connections w !! id = Some c
     ∧ dict_get (extra_dejson c) "project_api_key" ≠ PyNone
     ∧ h = initialised (next_oid w) id dbg args kwargs c
     ∧ w1 = with_next_oid (S (next_oid w)) w.
Proof.
  rewrite new_unfold. intros Hnew.
  pose proof (init_world _ _ _ _ _ _ _ _ Hnew) as ->.
  destruct (connections w !! id) as [c|] eqn:Hc.
  - exists c. split; [reflexivity |].
    destruct (dict_get (extra_dejson c) "project_api_key") eqn:Hk.
    1: rewrite (init_none _ _ _ _ _ _ c) in Hnew; [discriminate | exact Hc | exact Hk].
    all: rewrite (init_some _ _ _ _ _ _ c) in Hnew;
      [ | exact Hc | rewrite Hk; discriminate ].
    all: inversion Hnew; subst; repeat split; discriminate.
  - rewrite init_unresolved in Hnew; [discriminate | exact Hc].
Qed.

(** ** [get_conn] *)

Lemma get_conn_run (self : PostHogHook) (w : World) :
  PostHogHook.get_conn self w =
    (Return posthog.module,
     with_client (configuration_of self) (with_log (log w ++ get_conn_log self) w)).
Proof.
  unfold PostHogHook.get_conn, get_conn_log, configuration_of,
    client.set_debug, client.set_on_error, client.set_project_api_key,
    log_info, log_emit, with_client, with_log.
  destruct (posthog_debug_mode self); py_run.
  - now rewrite <- app_assoc.
  - reflexivity.
Qed.

(** ** [on_error] *)

Lemma on_error_run (self : PostHogHook) (error items : string) (w : World) :
  PostHogHook.on_error self error items w =
    (Raise (AirflowException ("PostHog error: " +:+ error)),
     with_log
       (log w ++
          [{| level := ERROR;
              msg := "Encountered PostHog error: %s with items: %s";
              args := [PyStr error; PyStr items] |}]) w).
Proof. reflexivity. Qed.

(** ** Hook construction and the API key *)

(** C2.  When the connection's extras have no [project_api_key], building
    the hook raises [AirflowException('No PostHog write key provided')]; the
    client's configuration, the calls that reached the client and the log
    are as they were before. *)
Theorem hook_without_key_fails (id : string) (dbg : bool) (args : list pyval)
    (kwargs : gmap string pyval) (c : Connection) (w : World) :
  connections w !! id = Some c →
  extra_dejson c !! "project_api_key" = None →
  ∃ w', PostHogHook.new id dbg args kwargs w =
          (Raise (AirflowException "No PostHog write key provided"), w')
      ∧ client w' = client w
      ∧ captured w' = captured w
      ∧ log w' = log w.
Proof.
  intros Hc Hk. eexists. rewrite new_unfold. split.
  - apply (init_none _ _ _ _ _ _ c); [exact Hc |].
    unfold dict_get. now rewrite Hk.
  - repeat split.
Qed.

Lemma hook_without_key_fails_witness :
  connections keyless_world !! "posthog_default" =
    Some {| conn_id := "posthog_default"; extra_dejson := ∅ |}
  ∧ (∅ : gmap string pyval) !! "project_api_key" = None
  ∧ ∃ w', PostHogHook.new "posthog_default" true [] ∅ keyless_world =
            (Raise (AirflowException "No PostHog write key provided"), w')
        ∧ client w' = client keyless_world
        ∧ captured w' = captured keyless_world
        ∧ log w' = log keyless_world.
Proof.
  split; [reflexivity |]. split; [reflexivity |].
  apply (hook_without_key_fails "posthog_default" true [] ∅
           {| conn_id := "posthog_default"; extra_dejson := ∅ |} keyless_world);
    reflexivity.
Defined.

(** C9.  With the connection resolved, construction raises the missing-key
    error exactly when [extras.get('project_api_key')] is [None], which is
    the case exactly when the key is absent or stored as null; every other
    value is accepted and becomes the hook's [project_api_key]. *)
Theorem missing_key_iff_none (id : string) (dbg : bool) (args : list pyval)
    (kwargs : gmap string pyval) (c : Connection) (w : World) :
  connections w !! id = Some c →
  let looked_up := dict_get (extra_dejson c) "project_api_key" in
  (fst (PostHogHook.new id dbg args kwargs w) =
     Raise (AirflowException "No PostHog write key provided")
   ↔ looked_up = PyNone)
  ∧ (looked_up = PyNone
     ↔ extra_dejson c !! "project_api_key" = None
       ∨ extra_dejson c !! "project_api_key" = Some PyNone)
  ∧ (looked_up ≠ PyNone →
     ∃ h, fst (PostHogHook.new id dbg args kwargs w) = Return h
        ∧ project_api_key h = looked_up).
Proof.
  intros Hc looked_up. rewrite new_unfold. repeat split.
  - intros Hraise. subst looked_up.
    destruct (dict_get (extra_dejson c) "project_api_key") eqn:Hk; [reflexivity | ..].
    all: rewrite (init_some _ _ _ _ _ _ c) in Hraise;
      [discriminate | exact Hc | rewrite Hk; discriminate].
  - intros Hk. now rewrite (init_none _ _ _ _ _ _ c).
  - subst looked_up. unfold dict_get.
    destruct (extra_dejson c !! "project_api_key") as [v|]; cbn.
    + intros ->. now right.
    + intros _. now left.
  - subst looked_up. unfold dict_get. now intros [-> | ->].
  - intros Hk. exists (initialised (next_oid w) id dbg args kwargs c).
    now rewrite (init_some _ _ _ _ _ _ c).
Qed.

Lemma missing_key_iff_none_witness :
  let w := world_of {["posthog_default" := conn_with_key "posthog_default" (PyStr "")]} in
  connections w !! "posthog_default" = Some (conn_with_key "posthog_default" (PyStr ""))
  ∧ ∃ h, fst (PostHogHook.new "posthog_default" false [] ∅ w) = Return h
       ∧ project_api_key h = PyStr "".
Proof.
  intros w. split; [reflexivity |].
  apply (missing_key_iff_none "posthog_default" false [] ∅
           (conn_with_key "posthog_default" (PyStr "")) w); [reflexivity |].
  vm_compute. discriminate.
Defined.

(** Falsy values other than [None] pass the check, and so does any string:
    the test is [is None], not truthiness. *)
Lemma falsy_keys_accepted :
  Forall
    (λ key, ∃ h w',
       PostHogHook.new "posthog_default" false [] ∅
         (world_of {["posthog_default" := conn_with_key "posthog_default" key]}) =
         (Return h, w')
       ∧ project_api_key h = key)
    [PyStr ""; PyInt 0; PyBool false; PyList []; PyDict ∅].
Proof. repeat constructor; do 2 eexists; split; reflexivity. Qed.

Lemma null_key_rejected :
  fst (PostHogHook.new "posthog_default" false [] ∅
         (world_of {["posthog_default" := conn_with_key "posthog_default" PyNone]})) =
  Raise (AirflowException "No PostHog write key provided").
Proof. reflexivity. Qed.

(** ** Configuring the client *)

(** C8.  For a hook whose construction returned, [get_conn], called in any
    later world, returns the client handle and leaves the client with the
    hook's debug flag, the hook's bound [on_error] and the hook's API key,
    which is the value found in the extras and is not [None]. *)
Theorem get_conn_configures_client (id : string) (dbg : bool)
    (args : list pyval) (kwargs : gmap string pyval) (w w1 : World)
    (h : PostHogHook) :
  PostHogHook.new id dbg args kwargs w = (Return h, w1) →
  ∀ w', ∃ w2,
    PostHogHook.get_conn h w' = (Return posthog.module, w2)
    ∧ posthog.debug (client w2) = posthog_debug_mode h
    ∧ posthog.on_error (client w2) = Some (bound_on_error h)
    ∧ posthog.project_api_key (client w2) = project_api_key h
    ∧ posthog_debug_mode h = dbg
    ∧ project_api_key h = dict_get (extras h) "project_api_key"
    ∧ project_api_key h ≠ PyNone.
Proof.
  intros Hnew w'. apply new_return_inv in Hnew as (c & Hc & Hk & -> & ->).
  eexists. split; [apply get_conn_run |]. repeat split. exact Hk.
Qed.

Lemma get_conn_configures_client_witness :
  PostHogHook.new "posthog_default" true [] ∅ abc_world =
    (Return (abc_hook true), abc_world_1)
  ∧ ∃ w2,
      PostHogHook.get_conn (abc_hook true) abc_world_1 = (Return posthog.module, w2)
      ∧ posthog.debug (client w2) = true
      ∧ posthog.on_error (client w2) = Some (bound_on_error (abc_hook true))
      ∧ posthog.project_api_key (client w2) = PyStr "abc".
Proof.
  split; [reflexivity |].
  destruct (get_conn_configures_client "posthog_default" true [] ∅
              abc_world abc_world_1 (abc_hook true) eq_refl abc_world_1)
    as (w2 & Hget & Hd & Hcb & Hkey & _).
  exists w2. repeat split; assumption.
Defined.

(** C3, as stated, fails: construction alone does not touch the client.
    Over a store whose connection carries the key ["abc"], a hook built in
    debug mode holds that key and flag, while the client still has no key
    and has debug off. *)
Lemma construction_alone_leaves_client_counterexample :
  ∃ h w1,
    PostHogHook.new "posthog_default" true [] ∅ abc_world = (Return h, w1)
    ∧ project_api_key h = PyStr "abc"
    ∧ posthog_debug_mode h = true
    ∧ posthog.project_api_key (client w1) ≠ project_api_key h
    ∧ posthog.debug (client w1) ≠ posthog_debug_mode h.
Proof.
  exists (abc_hook true), abc_world_1.
  split; [reflexivity |]. repeat split; discriminate.
Qed.

(** C3, amended.  For a connection whose extras carry a [project_api_key]
    other than null, construction returns a hook and leaves the client as
    it was; [get_conn] on that hook then makes the client's
    [project_api_key] and [debug] equal to the key of the connection and the
    debug flag the hook was built with. *)
Theorem construction_then_get_conn_configures (id : string) (dbg : bool)
    (args : list pyval) (kwargs : gmap string pyval) (c : Connection)
    (key : pyval) (w : World) :
  connections w !! id = Some c →
  extra_dejson c !! "project_api_key" = Some key →
  key ≠ PyNone →
  ∃ h w1 w2,
    PostHogHook.new id dbg args kwargs w = (Return h, w1)
    ∧ client w1 = client w
    ∧ project_api_key h = key
    ∧ posthog_debug_mode h = dbg
    ∧ PostHogHook.get_conn h w1 = (Return posthog.module, w2)
    ∧ posthog.project_api_key (client w2) = key
    ∧ posthog.debug (client w2) = dbg.
Proof.
  intros Hc Hkey Hne.
  assert (Hget : dict_get (extra_dejson c) "project_api_key" = key)
    by (unfold dict_get; now rewrite Hkey).
  exists (initialised (next_oid w) id dbg args kwargs c).
  do 2 eexists. split.
  - rewrite new_unfold. apply init_some; [exact Hc | now rewrite Hget].
  - split; [reflexivity |]. split; [exact Hget |]. split; [reflexivity |].
    split; [apply get_conn_run |]. split; [exact Hget | reflexivity].
Qed.

Lemma construction_then_get_conn_configures_witness :
  connections abc_world !! "posthog_default" =
    Some (conn_with_key "posthog_default" (PyStr "abc"))
  ∧ extra_dejson (conn_with_key "posthog_default" (PyStr "abc")) !! "project_api_key" =
      Some (PyStr "abc")
  ∧ PyStr "abc" ≠ PyNone
  ∧ ∃ h w1 w2,
      PostHogHook.new "posthog_default" true [] ∅ abc_world = (Return h, w1)
      ∧ client w1 = client abc_world
      ∧ project_api_key h = PyStr "abc"
      ∧ posthog_debug_mode h = true
      ∧ PostHogHook.get_conn h w1 = (Return posthog.module, w2)
      ∧ posthog.project_api_key (client w2) = PyStr "abc"
      ∧ posthog.debug (client w2) = true.
Proof.
  split; [reflexivity |]. split; [reflexivity |]. split; [discriminate |].
  apply (construction_then_get_conn_configures "posthog_default" true [] ∅
           (conn_with_key "posthog_default" (PyStr "abc")) (PyStr "abc") abc_world);
    [reflexivity | reflexivity | discriminate].
Defined.

(** ** Two hooks, one client *)

Lemma new_some id dbg args kwargs w c key :
  connections w !! id = Some c →
  extra_dejson c !! "project_api_key" = Some key →
  key ≠ PyNone →
  PostHogHook.new id dbg args kwargs w =
    (Return (initialised (next_oid w) id dbg args kwargs c),
     with_next_oid (S (next_oid w)) w).
Proof.
  intros Hc Hkey Hne. rewrite new_unfold. apply init_some; [exact Hc |].
  unfold dict_get. now rewrite Hkey.
Qed.

(** Construction never writes to the client, whether it returns or raises. *)
Lemma new_keeps_client id dbg args kwargs w r w' :
  PostHogHook.new id dbg args kwargs w = (r, w') →
  client w' = client w ∧ captured w' = captured w.
Proof.
  rewrite new_unfold. intros Hnew. now apply init_world in Hnew as ->.
Qed.

(** C4, as stated, fails: after two constructions with different keys the
    client is configured with neither key. *)
Lemma two_constructions_leave_client_counterexample :
  ∃ h1 h2 w',
    (h1 ← PostHogHook.new "first" false [] ∅;
     h2 ← PostHogHook.new "second" false [] ∅;
     mret (h1, h2)) two_key_world = (Return (h1, h2), w')
    ∧ project_api_key h1 = PyStr "k1"
    ∧ project_api_key h2 = PyStr "k2"
    ∧ posthog.project_api_key (client w') ≠ PyStr "k2"
    ∧ posthog.project_api_key (client w') = PyNone.
Proof.
  exists (initialised 0 "first" false [] ∅ (conn_with_key "first" (PyStr "k1"))),
    (initialised 1 "second" false [] ∅ (conn_with_key "second" (PyStr "k2"))).
  eexists. split; [reflexivity |]. repeat split. discriminate.
Qed.

(** C4, amended.  Two hooks built one after the other from connections with
    keys [k1] and [k2]: the two constructions leave the client, and the
    calls that reached it, as they were.  Once both hooks have run
    [get_conn], first then second, the client holds the second hook's key,
    debug flag and callback and nothing of the first; with the two
    [get_conn] calls the other way round it is the first hook's
    configuration that stays. *)
Theorem last_get_conn_wins (id1 id2 : string) (d1 d2 : bool)
    (c1 c2 : Connection) (k1 k2 : pyval) (w : World) :
  connections w !! id1 = Some c1 →
  connections w !! id2 = Some c2 →
  extra_dejson c1 !! "project_api_key" = Some k1 →
  extra_dejson c2 !! "project_api_key" = Some k2 →
  k1 ≠ PyNone → k2 ≠ PyNone →
  ∃ h1 h2 w2 w12 w21,
    (h1 ← PostHogHook.new id1 d1 [] ∅;
     h2 ← PostHogHook.new id2 d2 [] ∅;
     mret (h1, h2)) w = (Return (h1, h2), w2)
    ∧ client w2 = client w
    ∧ captured w2 = captured w
    ∧ (h1 ← PostHogHook.new id1 d1 [] ∅;
       h2 ← PostHogHook.new id2 d2 [] ∅;
       PostHogHook.get_conn h1;; PostHogHook.get_conn h2;;
       mret (h1, h2)) w = (Return (h1, h2), w12)
    ∧ project_api_key h1 = k1 ∧ project_api_key h2 = k2
    ∧ posthog.project_api_key (client w12) = k2
    ∧ posthog.debug (client w12) = d2
    ∧ posthog.on_error (client w12) = Some (bound_on_error h2)
    ∧ (h1 ← PostHogHook.new id1 d1 [] ∅;
       h2 ← PostHogHook.new id2 d2 [] ∅;
       PostHogHook.get_conn h2;; PostHogHook.get_conn h1;;
       mret (h1, h2)) w = (Return (h1, h2), w21)
    ∧ posthog.project_api_key (client w21) = k1
    ∧ posthog.debug (client w21) = d1
    ∧ posthog.on_error (client w21) = Some (bound_on_error h1).
Proof.
  intros Hc1 Hc2 Hk1 Hk2 Hn1 Hn2.
  set (h1 := initialised (next_oid w) id1 d1 [] ∅ c1).
  set (w1 := with_next_oid (S (next_oid w)) w).
  set (h2 := initialised (next_oid w1) id2 d2 [] ∅ c2).
  assert (H1 : PostHogHook.new id1 d1 [] ∅ w = (Return h1, w1))
    by (now apply (new_some _ _ _ _ _ _ k1)).
  assert (H2 : PostHogHook.new id2 d2 [] ∅ w1 =
               (Return h2, with_next_oid (S (next_oid w1)) w1))
    by (now apply (new_some _ _ _ _ _ _ k2)).
  assert (G1 : dict_get (extra_dejson c1) "project_api_key" = k1)
    by (unfold dict_get; now rewrite Hk1).
  assert (G2 : dict_get (extra_dejson c2) "project_api_key" = k2)
    by (unfold dict_get; now rewrite Hk2).
  exists h1, h2. do 3 eexists.
  split.
  { rewrite (run_bind_return _ _ _ _ _ H1), (run_bind_return _ _ _ _ _ H2).
    reflexivity. }
  split; [reflexivity |]. split; [reflexivity |].
  split.
  { rewrite (run_bind_return _ _ _ _ _ H1), (run_bind_return _ _ _ _ _ H2).
    rewrite (run_bind_return _ _ _ _ _ (get_conn_run h1 _)).
    rewrite (run_bind_return _ _ _ _ _ (get_conn_run h2 _)).
    reflexivity. }
  split; [exact G1 |]. split; [exact G2 |]. split; [exact G2 |].
  split; [reflexivity |]. split; [reflexivity |].
  split.
  { rewrite (run_bind_return _ _ _ _ _ H1), (run_bind_return _ _ _ _ _ H2).
    rewrite (run_bind_return _ _ _ _ _ (get_conn_run h2 _)).
    rewrite (run_bind_return _ _ _ _ _ (get_conn_run h1 _)).
    reflexivity. }
  split; [exact G1 |]. split; reflexivity.
Qed.

Lemma last_get_conn_wins_witness :
  ∃ h1 h2 w2 w12,
    (h1 ← PostHogHook.new "first" true [] ∅;
     h2 ← PostHogHook.new "second" false [] ∅;
     mret (h1, h2)) two_key_world = (Return (h1, h2), w2)
    ∧ client w2 = empty_client
    ∧ (h1 ← PostHogHook.new "first" true [] ∅;
       h2 ← PostHogHook.new "second" false [] ∅;
       PostHogHook.get_conn h1;; PostHogHook.get_conn h2;;
       mret (h1, h2)) two_key_world = (Return (h1, h2), w12)
    ∧ posthog.project_api_key (client w12) = PyStr "k2"
    ∧ posthog.debug (client w12) = false
    ∧ posthog.on_error (client w12) = Some (bound_on_error h2).
Proof.
  destruct (last_get_conn_wins "first" "second" true false
              (conn_with_key "first" (PyStr "k1"))
              (conn_with_key "second" (PyStr "k2"))
              (PyStr "k1") (PyStr "k2") two_key_world)
    as (h1 & h2 & w2 & w12 & w21 & Hnew & Hcl & _ & Hrun & _ & _
        & Hkey & Hdbg & Hcb & _);
    [reflexivity | reflexivity | reflexivity | reflexivity
    | discriminate | discriminate |].
  exists h1, h2, w2, w12. repeat split; assumption.
Defined.

(** ** The error callback *)

(** C5.  On a hook in debug mode, [on_error('rate limited', 'evt-123')]
    appends an ERROR record carrying the error and the item to the log and
    raises an [AirflowException] whose message contains ['rate limited']. *)
Theorem on_error_rate_limited (h : PostHogHook) (w : World) :
  posthog_debug_mode h = true →
  ∃ message w',
    PostHogHook.on_error h "rate limited" "evt-123" w =
      (Raise (AirflowException message), w')
    ∧ log w' =
        (log w ++
           [{| level := ERROR;
               msg := "Encountered PostHog error: %s with items: %s";
               args := [PyStr "rate limited"; PyStr "evt-123"] |}])%list
    ∧ client w' = client w
    ∧ message = "PostHog error: rate limited"
    ∧ contains "rate limited" message = true.
Proof.
  intros _. do 2 eexists. split; [apply on_error_run |].
  repeat split.
Qed.

Lemma on_error_rate_limited_witness :
  posthog_debug_mode (abc_hook true) = true
  ∧ ∃ message w',
      PostHogHook.on_error (abc_hook true) "rate limited" "evt-123" abc_world_1 =
        (Raise (AirflowException message), w')
      ∧ log w' =
          (log abc_world_1 ++
             [{| level := ERROR;
                 msg := "Encountered PostHog error: %s with items: %s";
                 args := [PyStr "rate limited"; PyStr "evt-123"] |}])%list
      ∧ client w' = client abc_world_1
      ∧ message = "PostHog error: rate limited"
      ∧ contains "rate limited" message = true.
Proof.
  split; [reflexivity |].
  apply (on_error_rate_limited (abc_hook true) abc_world_1). reflexivity.
Defined.

(** C10.  [get_conn] installs the hook's [on_error] in the client whatever
    the debug flag; and [on_error], called directly or through the installed
    callback, logs and raises an [AirflowException] whose message contains
    the error string, with the same result for any two hooks and hence for
    either value of the debug flag. *)
Theorem on_error_ignores_debug_mode (h : PostHogHook) (error items : string)
    (w : World) :
  (∀ w0, posthog.on_error (client (snd (PostHogHook.get_conn h w0))) =
           Some (bound_on_error h))
  ∧ PostHogHook.on_error h error items w =
      (Raise (AirflowException ("PostHog error: " +:+ error)),
       with_log
         (log w ++
            [{| level := ERROR;
                msg := "Encountered PostHog error: %s with items: %s";
                args := [PyStr error; PyStr items] |}]) w)
  ∧ contains error ("PostHog error: " +:+ error) = true
  ∧ (∀ h', PostHogHook.on_error h' error items w =
             PostHogHook.on_error h error items w)
  ∧ (∀ w0 cb,
       posthog.on_error (client (snd (PostHogHook.get_conn h w0))) = Some cb →
       PostHogHook.call_callback cb error items w =
         PostHogHook.on_error h error items w).
Proof.
  split; [intros w0; now rewrite get_conn_run |].
  split; [apply on_error_run |].
  split; [apply contains_suffix |].
  split; [reflexivity |].
  intros w0 cb. rewrite get_conn_run. cbn. now intros [= <-].
Qed.

(** Both values of the flag, on the sample hook. *)
Lemma on_error_either_flag :
  PostHogHook.on_error (abc_hook false) "rate limited" "evt-123" abc_world_1 =
  PostHogHook.on_error (abc_hook true) "rate limited" "evt-123" abc_world_1
  ∧ fst (PostHogHook.on_error (abc_hook false) "rate limited" "evt-123" abc_world_1) =
    Raise (AirflowException "PostHog error: rate limited").
Proof. split; reflexivity. Qed.

(** ** The operator *)

(** A hook has no attribute [capture]: not on the instance, not in the
    class, not in the base. *)
Lemma getattr_capture (h : PostHogHook) (w : World) :
  PostHogHook.getattr h "capture" w =
    (Raise (AttributeError "PostHogHook" "capture"), w).
Proof. reflexivity. Qed.

Lemma execute_unfold (self : PostHogTrackEventOperator.t) :
  PostHogTrackEventOperator.execute self =
    (hook ← PostHogHook.new (PostHogTrackEventOperator.posthog_conn_id self)
              (PostHogTrackEventOperator.posthog_debug_mode self) [] ∅;
     log_info (msg (sending_record self)) (args (sending_record self));;
     capture_statement self hook).
Proof. reflexivity. Qed.

Lemma capture_statement_run self hook w :
  capture_statement self hook w =
    (Raise (AttributeError "PostHogHook" "capture"), w).
Proof.
  unfold capture_statement.
  apply run_bind_raise, getattr_capture.
Qed.

(** With a usable connection, [execute] builds the hook, logs, and stops at
    the attribute reference [hook.capture]. *)
Lemma execute_run self w c key :
  connections w !! PostHogTrackEventOperator.posthog_conn_id self = Some c →
  extra_dejson c !! "project_api_key" = Some key →
  key ≠ PyNone →
  PostHogTrackEventOperator.execute self w =
    (Raise (AttributeError "PostHogHook" "capture"),
     with_log (log w ++ [sending_record self])
       (with_next_oid (S (next_oid w)) w)).
Proof.
  intros Hc Hk Hne. rewrite execute_unfold.
  rewrite (run_bind_return _ _ _ _ _ (new_some _ _ _ _ _ _ _ Hc Hk Hne)).
  reflexivity.
Qed.

(** [execute] never returns normally, never reaches the client's [capture]
    and never writes to the client. *)
Lemma execute_always_raises (self : PostHogTrackEventOperator.t) (w : World) :
  ∃ e w', PostHogTrackEventOperator.execute self w = (Raise e, w')
        ∧ captured w' = captured w
        ∧ client w' = client w.
Proof.
  rewrite execute_unfold.
  destruct (PostHogHook.new (PostHogTrackEventOperator.posthog_conn_id self)
              (PostHogTrackEventOperator.posthog_debug_mode self) [] ∅ w)
    as [[hook|e] w1] eqn:Hnew.
  - destruct (new_keeps_client _ _ _ _ _ _ _ Hnew) as [Hcl Hcap].
    exists (AttributeError "PostHogHook" "capture"). eexists.
    rewrite (run_bind_return _ _ _ _ _ Hnew). split; [reflexivity |].
    cbn. now split.
  - destruct (new_keeps_client _ _ _ _ _ _ _ Hnew) as [Hcl Hcap].
    exists e, w1. now rewrite (run_bind_raise _ _ _ _ _ Hnew).
Qed.

(** What the call would do if it went through the client that [get_conn]
    returns: one call of the client's [capture], with the three values. *)
Lemma get_conn_then_capture (h : PostHogHook) (user_id event : string)
    (properties : gmap string pyval) (w : World) :
  ∃ w', (cl ← PostHogHook.get_conn h;
         client.capture cl user_id event properties) w = (Return tt, w')
      ∧ captured w' =
          (captured w ++
             [{| capture_user_id := user_id; capture_event := event;
                 capture_properties := properties |}])%list
      ∧ client w' = configuration_of h.
Proof.
  eexists. rewrite (run_bind_return _ _ _ _ _ (get_conn_run h w)).
  repeat split.
Qed.

(** C1.  What [execute] does in the scenario of the claim.  The operator is
    built with [user_id='u1'], [event='signup'], [properties={'plan':
    'pro'}]; its connection resolves to extras with [project_api_key='abc'].
    [execute] builds the hook, logs, and raises [AttributeError] at
    [hook.capture]: [get_conn] is never called, the client keeps the
    configuration it had, and the client's [capture] is reached zero times,
    not once. *)
Theorem execute_signup_never_captures (conn : option string)
    (dbg : option bool) (c : Connection) (w : World) :
  let op := PostHogTrackEventOperator.__init__ "u1" "signup"
              (Some {["plan" := PyStr "pro"]}) conn dbg in
  connections w !! PostHogTrackEventOperator.posthog_conn_id op = Some c →
  extra_dejson c !! "project_api_key" = Some (PyStr "abc") →
  ∃ w', PostHogTrackEventOperator.execute op w =
          (Raise (AttributeError "PostHogHook" "capture"), w')
      ∧ captured w' = captured w
      ∧ client w' = client w.
Proof.
  intros op Hc Hk. eexists. split.
  - apply (execute_run op w c (PyStr "abc")); [exact Hc | exact Hk | discriminate].
  - split; reflexivity.
Qed.

Lemma execute_signup_never_captures_witness :
  PostHogTrackEventOperator.execute signup_operator abc_world =
    (Raise (AttributeError "PostHogHook" "capture"),
     with_log [sending_record signup_operator] abc_world_1)
  ∧ ∃ w', PostHogTrackEventOperator.execute signup_operator abc_world =
            (Raise (AttributeError "PostHogHook" "capture"), w')
        ∧ captured w' = []
        ∧ client w' = empty_client.
Proof.
  split; [reflexivity |].
  apply (execute_signup_never_captures None None
           (conn_with_key "posthog_default" (PyStr "abc")) abc_world);
    reflexivity.
Defined.

(** C6.  An operator built without [properties] holds the empty dictionary
    as its [properties], and the call in [execute] is written with that
    value; but [execute] raises before any call is made, in every world, so
    the client's [capture] is not invoked at all. *)
Theorem execute_default_properties_never_captures (user_id event : string)
    (conn : option string) (dbg : option bool) (w : World) :
  let op := PostHogTrackEventOperator.__init__ user_id event None conn dbg in
  PostHogTrackEventOperator.properties op = ∅
  ∧ ∃ e w', PostHogTrackEventOperator.execute op w = (Raise e, w')
          ∧ captured w' = captured w.
Proof.
  intros op. split; [reflexivity |].
  destruct (execute_always_raises op w) as (e & w' & Hrun & Hcap & _).
  now exists e, w'.
Qed.

(** The same on the sample world, where the connection is usable. *)
Lemma execute_default_properties_sample :
  let op := PostHogTrackEventOperator.__init__ "u1" "signup" None None None in
  PostHogTrackEventOperator.execute op abc_world =
    (Raise (AttributeError "PostHogHook" "capture"),
     with_log
       [{| level := INFO;
           msg := "Sending track event (%s) for user id: %s with properties: %s";
           args := [PyStr "signup"; PyStr "u1"; PyDict ∅] |}]
       abc_world_1).
Proof. reflexivity. Qed.

(** [properties or {}]: an empty dictionary passed explicitly is replaced
    by an empty dictionary, a non-empty one is kept. *)
Lemma or_empty_dict_spec (x : option (gmap string pyval)) :
  or_empty_dict x = default ∅ x.
Proof.
  destruct x as [d|]; [| reflexivity]. unfold or_empty_dict.
  now destruct (decide (d = ∅)) as [->|].
Qed.

(** C7.  [execute] has no handler: it raises [e] and leaves world [w']
    exactly when the construction of the hook does so, or when the
    construction returns and the call statement, run after the log record
    is written, does so.  The error and the world reach the caller as they
    were raised.  Whatever the outcome, one hook object has been created:
    nothing is tried twice. *)
Theorem execute_propagates_errors (self : PostHogTrackEventOperator.t)
    (w w' : World) (e : exn) :
  (PostHogTrackEventOperator.execute self w = (Raise e, w')
   ↔ PostHogHook.new (PostHogTrackEventOperator.posthog_conn_id self)
       (PostHogTrackEventOperator.posthog_debug_mode self) [] ∅ w = (Raise e, w')
     ∨ ∃ hook w1,
         PostHogHook.new (PostHogTrackEventOperator.posthog_conn_id self)
           (PostHogTrackEventOperator.posthog_debug_mode self) [] ∅ w =
           (Return hook, w1)
         ∧ capture_statement self hook
             (with_log (log w1 ++ [sending_record self]) w1) = (Raise e, w'))
  ∧ (∀ r w2, PostHogTrackEventOperator.execute self w = (r, w2) →
             next_oid w2 = S (next_oid w)).
Proof.
  split.
  - rewrite execute_unfold, run_bind_raise_inv.
    apply or_iff_compat_l. split.
    + intros (hook & w1 & Hnew & Hrest). exists hook, w1. split; [exact Hnew |].
      apply run_bind_raise_inv in Hrest as [Hlog | (u & w2 & Hlog & Hcall)].
      * discriminate Hlog.
      * now inversion Hlog; subst.
    + intros (hook & w1 & Hnew & Hcall). exists hook, w1. split; [exact Hnew |].
      apply run_bind_raise_inv. right. now exists tt, (with_log (log w1 ++ [sending_record self]) w1).
  - intros r w2. rewrite execute_unfold.
    destruct (PostHogHook.new (PostHogTrackEventOperator.posthog_conn_id self)
                (PostHogTrackEventOperator.posthog_debug_mode self) [] ∅ w)
      as [[hook|e1] w1] eqn:Hnew.
    + rewrite (run_bind_return _ _ _ _ _ Hnew).
      apply new_return_inv in Hnew as (c & _ & _ & _ & ->).
      intros [= <- <-]. reflexivity.
    + rewrite (run_bind_raise _ _ _ _ _ Hnew). intros [= <- <-].
      rewrite new_unfold in Hnew. now apply init_world in Hnew as ->.
Qed.

(** The three ways [execute] ends, each with the error of the step that
    raised it. *)
Lemma execute_unresolved_connection self w :
  connections w !! PostHogTrackEventOperator.posthog_conn_id self = None →
  fst (PostHogTrackEventOperator.execute self w) =
    Raise (ConnectionNotFound (PostHogTrackEventOperator.posthog_conn_id self)).
Proof.
  intros Hc. rewrite execute_unfold.
  erewrite run_bind_raise; [reflexivity |].
  rewrite new_unfold. now apply init_unresolved.
Qed.

Lemma execute_missing_key self w c :
  connections w !! PostHogTrackEventOperator.posthog_conn_id self = Some c →
  dict_get (extra_dejson c) "project_api_key" = PyNone →
  fst (PostHogTrackEventOperator.execute self w) =
    Raise (AirflowException "No PostHog write key provided").
Proof.
  intros Hc Hk. rewrite execute_unfold.
  erewrite run_bind_raise; [reflexivity |].
  rewrite new_unfold. now apply (init_none _ _ _ _ _ _ c).
Qed.

(** * Further properties of the two classes *)

(** ** Construction of the hook *)

(** X1.  When the connection identifier does not resolve, construction
    raises the error of the connection store for that identifier, as the
    store raised it: the key check is not reached, and nothing but the
    creation of the object has happened to the world. *)
Theorem hook_unknown_connection (id : string) (dbg : bool) (args : list pyval)
    (kwargs : gmap string pyval) (w : World) :
  connections w !! id = None →
  PostHogHook.new id dbg args kwargs w =
    (Raise (ConnectionNotFound id), with_next_oid (S (next_oid w)) w).
Proof.
  intros Hc. rewrite new_unfold. now apply init_unresolved.
Qed.

Lemma hook_unknown_connection_witness :
  connections abc_world !! "posthog_other" = None
  ∧ PostHogHook.new "posthog_other" false [] ∅ abc_world =
      (Raise (ConnectionNotFound "posthog_other"), abc_world_1).
Proof.
  split; [reflexivity |].
  apply (hook_unknown_connection "posthog_other" false [] ∅ abc_world).
  reflexivity.
Defined.

(** X2.  Of the extras only [project_api_key] counts.  Two connections
    whose extras differ in one other key give the same error or, when
    construction returns, hooks with the same API key; the second hook
    keeps the larger extras. *)
Theorem other_extras_keys_ignored (id : string) (dbg : bool)
    (args : list pyval) (kwargs : gmap string pyval) (c c' : Connection)
    (w w' : World) (k : string) (v : pyval) :
  k ≠ "project_api_key" →
  connections w !! id = Some c →
  connections w' !! id = Some c' →
  extra_dejson c' = <[k := v]> (extra_dejson c) →
  (∀ e, fst (PostHogHook.new id dbg args kwargs w) = Raise e
        ↔ fst (PostHogHook.new id dbg args kwargs w') = Raise e)
  ∧ (∀ h, fst (PostHogHook.new id dbg args kwargs w) = Return h →
          ∃ h', fst (PostHogHook.new id dbg args kwargs w') = Return h'
              ∧ project_api_key h' = project_api_key h
              ∧ extras h' = <[k := v]> (extras h)).
Proof.
  intros Hk Hc Hc' Hex.
  assert (Hget : dict_get (extra_dejson c') "project_api_key" =
                 dict_get (extra_dejson c) "project_api_key").
  { unfold dict_get. rewrite Hex. now rewrite lookup_insert_ne. }
  rewrite !new_unfold.
  destruct (dict_get (extra_dejson c) "project_api_key") eqn:Hv.
  1: { rewrite (init_none _ _ _ _ _ _ c), (init_none _ _ _ _ _ _ c');
         [ | exact Hc' | exact Hget | exact Hc | exact Hv ].
       split; [reflexivity | discriminate]. }
  all: rewrite (init_some _ _ _ _ _ _ c), (init_some _ _ _ _ _ _ c');
    [ | exact Hc' | rewrite Hget; discriminate | exact Hc | rewrite Hv; discriminate ].
  all: split; [split; discriminate |].
  all: intros h [= <-]; eexists; split; [reflexivity |].
  all: cbn; split; [now rewrite Hget, Hv | exact Hex].
Qed.

Lemma other_extras_keys_ignored_witness :
  ∃ h', fst (PostHogHook.new "posthog_default" false [] ∅ write_key_world) = Return h'
      ∧ project_api_key h' = PyStr "abc".
Proof.
  destruct (other_extras_keys_ignored "posthog_default" false [] ∅
              (conn_with_key "posthog_default" (PyStr "abc"))
              {| conn_id := "posthog_default";
                 extra_dejson :=
                   <["write_key" := PyStr "abc"]>
                     {["project_api_key" := PyStr "abc"]} |}
              abc_world write_key_world "write_key" (PyStr "abc"))
    as [_ Hret];
    [discriminate | reflexivity | reflexivity | reflexivity |].
  destruct (Hret (abc_hook false) eq_refl) as (h' & Hnew & Hkey & _).
  exists h'. split; [exact Hnew | exact Hkey].
Defined.

(** ** [get_conn] and the state it leaves *)

(** X4.  [get_conn] rewrites the whole client configuration and nothing
    else but the log: the configuration after it does not depend on the one
    before it, a second [get_conn] on the same hook changes nothing in it,
    and the store, the calls that reached the client and the object counter
    are as they were. *)
Theorem get_conn_overwrites_configuration (h : PostHogHook) (w1 w2 : World) :
  client (snd (PostHogHook.get_conn h w1)) =
    client (snd (PostHogHook.get_conn h w2))
  ∧ client (snd ((PostHogHook.get_conn h;; PostHogHook.get_conn h) w1)) =
      client (snd (PostHogHook.get_conn h w1))
  ∧ connections (snd (PostHogHook.get_conn h w1)) = connections w1
  ∧ captured (snd (PostHogHook.get_conn h w1)) = captured w1
  ∧ next_oid (snd (PostHogHook.get_conn h w1)) = next_oid w1.
Proof.
  rewrite (run_bind_return _ _ _ _ _ (get_conn_run h w1)).
  rewrite !get_conn_run. repeat split.
Qed.

(** X5.  The debug flag decides what [get_conn] logs: the records it
    appends start with the write-key record, and the debug-mode record is
    among them exactly when the hook is in debug mode, so that the log
    grows by two records in debug mode and by one otherwise. *)
Theorem get_conn_log_by_debug_mode (h : PostHogHook) (w : World) :
  ∃ rest,
    log (snd (PostHogHook.get_conn h w)) =
      (log w ++
         {| level := INFO; msg := "Setting write key for PostHog connection";
            args := [] |} :: rest)%list
    ∧ (debug_mode_record ∈ rest ↔ posthog_debug_mode h = true)
    ∧ length rest = (if posthog_debug_mode h then 1 else 0).
Proof.
  rewrite get_conn_run. unfold get_conn_log.
  destruct (posthog_debug_mode h); eexists; (split; [reflexivity |]).
  - split; [| reflexivity]. split; [reflexivity |].
    intros _. apply list_elem_of_singleton. reflexivity.
  - split; [| reflexivity]. split; [| discriminate].
    intros Hin. now apply not_elem_of_nil in Hin.
Qed.

(** ** Class attributes *)

(** X7.  The class attribute [conn_name_attr] names an attribute that
    every constructed hook has: referring to it on the hook gives the
    connection identifier the hook was built with. *)
Theorem conn_name_attr_resolves (id : string) (dbg : bool) (args : list pyval)
    (kwargs : gmap string pyval) (w w1 : World) (h : PostHogHook) :
  PostHogHook.new id dbg args kwargs w = (Return h, w1) →
  ∀ w', PostHogHook.getattr h PostHogHook.conn_name_attr w' =
          (Return (attr_data (PyStr id)), w').
Proof.
  intros Hnew w'. apply new_return_inv in Hnew as (c & _ & _ & -> & _).
  reflexivity.
Qed.

Lemma conn_name_attr_resolves_witness :
  PostHogHook.new "posthog_default" false [] ∅ abc_world =
    (Return (abc_hook false), abc_world_1)
  ∧ PostHogHook.getattr (abc_hook false) "posthog_conn_id" abc_world_1 =
      (Return (attr_data (PyStr "posthog_default")), abc_world_1).
Proof.
  split; [reflexivity |].
  apply (conn_name_attr_resolves "posthog_default" false [] ∅
           abc_world abc_world_1 (abc_hook false)).
  reflexivity.
Defined.

(** ** The operator *)

(** X8.  [properties or {}] never changes a dictionary: the operator holds
    the dictionary it was given, empty or not; and an operator built
    without a connection identifier uses the hook's [default_conn_name],
    with debug mode off when that is omitted too. *)
Theorem operator_init_keeps_properties (user_id event : string)
    (d : gmap string pyval) (conn : option string) (dbg : option bool) :
  PostHogTrackEventOperator.properties
    (PostHogTrackEventOperator.__init__ user_id event (Some d) conn dbg) = d
  ∧ PostHogTrackEventOperator.posthog_conn_id
      (PostHogTrackEventOperator.__init__ user_id event (Some d) None dbg) =
    PostHogHook.default_conn_name
  ∧ PostHogTrackEventOperator.posthog_debug_mode
      (PostHogTrackEventOperator.__init__ user_id event (Some d) conn None) =
    false.
Proof.
  split; [| split; reflexivity].
  cbn. unfold or_empty_dict. now destruct (decide (d = ∅)) as [->|].
Qed.

(** X6.  How [execute] ends, in every world.  If the operator's connection
    identifier does not resolve, with the error of the store; if the
    connection has no key, with the missing-key error; in both cases before
    anything is logged.  Otherwise the record with the event, the user
    identifier and the properties, in this order, is logged and the
    attribute reference [hook.capture] raises [AttributeError]. *)
Theorem execute_outcome (self : PostHogTrackEventOperator.t) (w : World) :
  PostHogTrackEventOperator.execute self w =
    match connections w !! PostHogTrackEventOperator.posthog_conn_id self with
    | None =>
        (Raise (ConnectionNotFound (PostHogTrackEventOperator.posthog_conn_id self)),
         with_next_oid (S (next_oid w)) w)
    | Some c =>
        match dict_get (extra_dejson c) "project_api_key" with
        | PyNone =>
            (Raise (AirflowException "No PostHog write key provided"),
             with_next_oid (S (next_oid w)) w)
        | _ =>
            (Raise (AttributeError "PostHogHook" "capture"),
             with_log
               (log w ++
                  [{| level := INFO;
                      msg := "Sending track event (%s) for user id: %s with properties: %s";
                      args := [PyStr (PostHogTrackEventOperator.event self);
                               PyStr (PostHogTrackEventOperator.user_id self);
                               PyDict (PostHogTrackEventOperator.properties self)] |}])
               (with_next_oid (S (next_oid w)) w))
        end
    end.
Proof.
  rewrite execute_unfold.
  destruct (connections w !! PostHogTrackEventOperator.posthog_conn_id self)
    as [c|] eqn:Hc.
  - destruct (dict_get (extra_dejson c) "project_api_key") eqn:Hk.
    1: { apply run_bind_raise. rewrite new_unfold.
         now apply (init_none _ _ _ _ _ _ c). }
    all: assert (Hnew :
           PostHogHook.new (PostHogTrackEventOperator.posthog_conn_id self)
             (PostHogTrackEventOperator.posthog_debug_mode self) [] ∅ w =
           (Return (initialised (next_oid w)
                      (PostHogTrackEventOperator.posthog_conn_id self)
                      (PostHogTrackEventOperator.posthog_debug_mode self) [] ∅ c),
            with_next_oid (S (next_oid w)) w))
      by (rewrite new_unfold; apply init_some;
          [exact Hc | rewrite Hk; discriminate]).
    all: rewrite (run_bind_return _ _ _ _ _ Hnew); reflexivity.
  - apply run_bind_raise. rewrite new_unfold. now apply init_unresolved.
Qed.
